(** * AskAI: the request handlers of [main.py] over a model of their
      collaborators

    [main.py] has three handlers that touch storage: [ask_ai] (POST /ask),
    [get_conversation_history] (GET /history) and [delete_conversation]
    (DELETE /delete/{convo_id}).  They are embedded here as computations in a
    small state-and-exception monad.  The state is the world outside the
    handler: the [conversation_history] table with its id sequence, the
    SQLAlchemy sessions created so far, and a chronological trace of the calls
    made to the collaborators.  What the collaborators answer (the completion
    service, storage faults, the clock) is an input of every request. *)

From stdpp Require Import base option list gmap strings pretty sorting.

Local Open Scope string_scope.
Local Open Scope Z_scope.
Local Open Scope list_scope.

(** ** Exceptions *)

(** The Python exception classes that can reach the handlers' [except]
    clauses.  All of them derive from [Exception]. *)
Inductive exn_class :=
  | APIConnectionError      (* openai: network failure *)
  | AuthenticationError     (* openai: bad API key *)
  | RateLimitError          (* openai *)
  | IndexError              (* [response.choices[0]] on an empty list *)
  | OperationalError        (* sqlalchemy: storage unavailable *)
  | IntegrityError          (* sqlalchemy: a constraint of the table violated *)
  | DataError               (* sqlalchemy: a value out of the range of its type *)
  | ValueError.             (* psycopg2: a parameter it cannot send *)

Inductive exn :=
  | HTTPException (status_code : Z) (detail : string)
  | PyError (cls : exn_class) (msg : string).

(** [str(e)].  For [HTTPException] this is Starlette's
    ["{status_code}: {detail}"]; for the others the message text. *)
Definition str (e : exn) : string :=
  match e with
  | HTTPException status_code detail => pretty status_code +:+ ": " +:+ detail
  | PyError _ msg => msg
  end.

Inductive outcome (A : Type) :=
  | Return (a : A)
  | Raise (e : exn).
Arguments Return {A} a.
Arguments Raise {A} e.

(** The HTTP status FastAPI answers with: 200 for a returned value, the
    status of a raised [HTTPException], 500 for any other exception. *)
Definition status {A} (o : outcome A) : Z :=
  match o with
  | Return _ => 200
  | Raise (HTTPException status_code _) => status_code
  | Raise (PyError _ _) => 500
  end.

(** ** Data *)

(** A Python [str] is modelled by its UTF-8 encoding, a [string] of bytes; a
    [str] that has none (one with a lone surrogate) is outside the model. *)

Module Prompt.
(** [class Prompt(BaseModel)]: [user_input: str]. *)
Record t := mk { user_input : string }.
End Prompt.

(** The columns of [conversation_history] other than the primary key.  A
    [Text] column holds a string or NULL ([None]); [nullable=False] is a
    constraint checked when a row is inserted. *)
Record row := Row {
  row_user_input : option string;
  row_ai_response : option string;
  row_created_at : Z
}.

Module Conversation.
(** A persistent [Conversation] object: a row together with its key. *)
Record t := mk {
  id : Z;
  user_input : option string;
  ai_response : option string;
  created_at : Z
}.

(** [Conversation(user_input=..., ai_response=...)]: a transient object;
    [id] and [created_at] are assigned by the storage layer at flush. *)
Record transient := new {
  new_user_input : option string;
  new_ai_response : option string
}.

Definition load (k : Z) (r : row) : t :=
  mk k (row_user_input r) (row_ai_response r) (row_created_at r).
End Conversation.

(** ** The completion collaborator *)

Record chat_message := Message { role : string; content : string }.

Record chat_request := ChatRequest {
  model : string;
  messages : list chat_message
}.

(** [response.choices[i].message.content] for each choice; the content of a
    choice may be [None]. *)
Record chat_response := ChatResponse { choices : list (option string) }.

(** ** The world *)

Inductive pending_op :=
  | PendingAdd (obj : Conversation.transient)
  | PendingDelete (key : Z).

(** A SQLAlchemy session: its unit of work (the objects added or marked for
    deletion and not yet flushed), what its open transaction holds flushed
    and not yet committed (the table as its statements have changed it), and
    whether it has not been closed. *)
Record session := Session {
  pending : list pending_op;
  uncommitted : option (gmap Z row);
  active : bool
}.

Inductive event :=
  | CompletionsCreate (req : chat_request)
  | SessionOpened (db : nat)
  | Queried (db : nat)
  | Added (db : nat)
  | Deleted (db : nat) (key : Z)
  | Committed (db : nat)
  | CommitFailed (db : nat)
  | RolledBack (db : nat)
  | Closed (db : nat).

Record world := World {
  table : gmap Z row;          (* the committed rows, by primary key *)
  id_seq : Z;                  (* the next value of the id sequence *)
  sessions : list session;     (* every session created so far *)
  trace : list event           (* collaborator calls, oldest first *)
}.

(** Where a fault of the storage strikes a [db.commit()]: at the flush,
    before any of its statements has reached the server, or at the COMMIT
    that follows the flush. *)
Inductive commit_stage :=
  | AtFlush
  | AtCommit.

(** What the collaborators answer during one request. *)
Record env := Env {
  completion : chat_request → outcome chat_response;
  query_fault : option exn;    (* the SELECT of this request fails with it *)
  commit_fault : option exn;   (* the commit of this request fails with it *)
  commit_fault_at : commit_stage;  (* where it does, if it does *)
  now : Z                      (* the storage server's clock *)
}.

(** ** The monad of handlers *)

Definition M (A : Type) : Type := env → world → outcome A * world.

#[global] Instance M_ret : MRet M := λ A a _ w, (Return a, w).
#[global] Instance M_bind : MBind M := λ A B f m e w,
  match m e w with
  | (Return a, w') => f a e w'
  | (Raise x, w') => (Raise x, w')
  end.

Definition raise {A} (x : exn) : M A := λ _ w, (Raise x, w).

(** [try: body except Exception as e: handler e] *)
Definition try_except {A} (body : M A) (handler : exn → M A) : M A :=
  λ e w,
    match body e w with
    | (Return a, w') => (Return a, w')
    | (Raise x, w') => handler x e w'
    end.

(** [try: body finally: cleanup]: the cleanup runs on every exit and the
    outcome of the body is kept, unless the cleanup itself raises. *)
Definition try_finally {A} (body : M A) (cleanup : M unit) : M A :=
  λ e w,
    match body e w with
    | (o, w') =>
        match cleanup e w' with
        | (Return _, w'') => (o, w'')
        | (Raise x, w'') => (Raise x, w'')
        end
    end.

Definition ask_env : M env := λ e w, (Return e, w).
Definition get_world : M world := λ _ w, (Return w, w).
Definition log (ev : event) : M unit :=
  λ _ w, (Return (), World (table w) (id_seq w) (sessions w) (trace w ++ [ev])).
Definition set_sessions (f : list session → list session) : M unit :=
  λ _ w, (Return (), World (table w) (id_seq w) (f (sessions w)) (trace w)).
Definition set_storage (t : gmap Z row) (s : Z) : M unit :=
  λ _ w, (Return (), World t s (sessions w) (trace w)).

(** ** The storage layer, as the handlers use it *)

(** [SessionLocal()]: a fresh session; its handle is its position in the
    world's list of sessions. *)
Definition SessionLocal : M nat :=
  w ← get_world;
  let db := length (sessions w) in
  set_sessions (λ ss, ss ++ [Session [] None true]);;
  log (SessionOpened db);;
  mret db.

(** What a session becomes: with one more object in its unit of work; with
    its unit of work flushed, the transaction holding the table [t]; rolled
    back, with nothing pending and nothing uncommitted; closed. *)
Definition enqueue (op : pending_op) (s : session) : session :=
  Session (pending s ++ [op]) (uncommitted s) (active s).
Definition flushed (t : gmap Z row) (s : session) : session :=
  Session [] (Some t) (active s).
Definition expunge (s : session) : session := Session [] None (active s).
Definition release (s : session) : session := Session [] None false.

Definition pending_of (db : nat) (w : world) : list pending_op :=
  match sessions w !! db with
  | Some s => pending s
  | None => []
  end.

(** [db.add(obj)] *)
Definition db_add (db : nat) (obj : Conversation.transient) : M unit :=
  set_sessions (alter (enqueue (PendingAdd obj)) db);;
  log (Added db).

(** [db.delete(convo)]: the row with the object's primary key is marked for
    deletion. *)
Definition db_delete (db : nat) (convo : Conversation.t) : M unit :=
  set_sessions (alter (enqueue (PendingDelete (Conversation.id convo))) db);;
  log (Deleted db (Conversation.id convo)).

(** Whether a text holds the character NUL, which PostgreSQL texts cannot. *)
Fixpoint has_nul (s : string) : bool :=
  match s with
  | EmptyString => false
  | String c s' => Ascii.eqb c Ascii.zero || has_nul s'
  end.

Definition nul_in (v : option string) : bool := from_option has_nul false v.

(** The greatest value of the [Integer] column [id] and of its sequence. *)
Definition int4_max : Z := 2147483647.

(** What a flush does to the table, one pending operation after the other,
    and the value of the id sequence after it.  An insert takes its id from
    the sequence and its [created_at] from the server clock
    ([server_default="now()"]).  It is refused by the driver, before it is
    sent, when a text holds a NUL character; by the server when the sequence
    is exhausted, and, the id being taken from the sequence and lost, when a
    [nullable=False] column would be NULL or the key is in use. *)
Fixpoint flush (ops : list pending_op) (clock : Z) (t : gmap Z row) (s : Z)
    : outcome (gmap Z row) * Z :=
  match ops with
  | [] => (Return t, s)
  | PendingAdd obj :: ops' =>
      if nul_in (Conversation.new_user_input obj)
         || nul_in (Conversation.new_ai_response obj)
      then
        (Raise (PyError ValueError
                  "A string literal cannot contain NUL (0x00) characters."), s)
      else if bool_decide (int4_max < s) then
        (Raise (PyError DataError
                  "nextval: reached maximum value of sequence"), s)
      else
        match Conversation.new_user_input obj,
              Conversation.new_ai_response obj with
        | Some u, Some a =>
            match t !! s with
            | None =>
                flush ops' clock (<[s := Row (Some u) (Some a) clock]> t) (s + 1)
            | Some _ =>
                (Raise (PyError IntegrityError
                          "duplicate key value violates unique constraint"),
                 s + 1)
            end
        | _, _ =>
            (Raise (PyError IntegrityError
                      "null value in column violates not-null constraint"),
             s + 1)
        end
  | PendingDelete k :: ops' => flush ops' clock (delete k t) s
  end.

(** [db.commit()]: the unit of work is flushed inside the transaction of the
    session, then the transaction is committed.  A fault at the flush, or a
    statement that is refused, makes the session roll its transaction back
    and discard its unit of work; an id taken from the sequence stays taken.
    A fault at the COMMIT leaves the session with its transaction, holding
    what was flushed, until a rollback or a close. *)
Definition db_commit (db : nat) : M unit :=
  e ← ask_env;
  w ← get_world;
  match commit_fault e, commit_fault_at e with
  | Some x, AtFlush =>
      set_sessions (alter expunge db);;
      log (CommitFailed db);;
      raise x
  | fault, _ =>
      match flush (pending_of db w) (now e) (table w) (id_seq w) with
      | (Raise x, s) =>
          set_storage (table w) s;;
          set_sessions (alter expunge db);;
          log (CommitFailed db);;
          raise x
      | (Return t, s) =>
          set_storage (table w) s;;
          set_sessions (alter (flushed t) db);;
          match fault with
          | Some x =>
              log (CommitFailed db);;
              raise x
          | None =>
              set_storage t s;;
              set_sessions (alter expunge db);;
              log (Committed db)
          end
      end
  end.

(** What a commit of the pending operations [ops] comes to: the exception it
    raises, or the table and the sequence it leaves committed. *)
Definition commit_result (e : env) (ops : list pending_op) (w : world)
    : outcome (gmap Z row * Z) :=
  match commit_fault e, commit_fault_at e with
  | Some x, AtFlush => Raise x
  | fault, _ =>
      match flush ops (now e) (table w) (id_seq w) with
      | (Raise x, _) => Raise x
      | (Return t, s) =>
          match fault with
          | Some x => Raise x
          | None => Return (t, s)
          end
      end
  end.

(** The value of the id sequence after a commit of [ops], failed or not. *)
Definition sequence_after (e : env) (ops : list pending_op) (w : world) : Z :=
  match commit_fault e, commit_fault_at e with
  | Some _, AtFlush => id_seq w
  | _, _ => (flush ops (now e) (table w) (id_seq w)).2
  end.

(** What the transaction of the session holds flushed and uncommitted after
    a commit of [ops]: something only when the COMMIT itself failed. *)
Definition uncommitted_after (e : env) (ops : list pending_op) (w : world)
    : option (gmap Z row) :=
  match commit_fault e, commit_fault_at e with
  | Some _, AtCommit =>
      match flush ops (now e) (table w) (id_seq w) with
      | (Return t, _) => Some t
      | (Raise _, _) => None
      end
  | _, _ => None
  end.

(** [db.rollback()] *)
Definition db_rollback (db : nat) : M unit :=
  set_sessions (alter expunge db);;
  log (RolledBack db).

(** [db.close()] *)
Definition db_close (db : nat) : M unit :=
  set_sessions (alter release db);;
  log (Closed db).

(** [db.query(Conversation).filter(Conversation.id == convo_id).first()] *)
Definition db_query_by_id_first (db : nat) (convo_id : Z)
    : M (option Conversation.t) :=
  e ← ask_env;
  w ← get_world;
  log (Queried db);;
  match query_fault e with
  | Some x => raise x
  | None => mret (Conversation.load convo_id <$> table w !! convo_id)
  end.

Definition id_desc (a b : Conversation.t) : Prop :=
  Conversation.id b ≤ Conversation.id a.
#[global] Instance id_desc_dec a b : Decision (id_desc a b) :=
  Z_le_dec (Conversation.id b) (Conversation.id a).

Definition all_conversations (t : gmap Z row) : list Conversation.t :=
  (λ kr, Conversation.load kr.1 kr.2) <$> map_to_list t.

(** [db.query(Conversation).order_by(Conversation.id.desc()).all()] *)
Definition db_query_order_by_id_desc_all (db : nat) : M (list Conversation.t) :=
  e ← ask_env;
  w ← get_world;
  log (Queried db);;
  match query_fault e with
  | Some x => raise x
  | None => mret (merge_sort id_desc (all_conversations (table w)))
  end.

(** [client.chat.completions.create(model=..., messages=...)] *)
Definition chat_completions_create (req : chat_request) : M chat_response :=
  e ← ask_env;
  log (CompletionsCreate req);;
  match completion e req with
  | Return r => mret r
  | Raise x => raise x
  end.

(** [l[0]] *)
Definition index0 {A} (l : list A) : M A :=
  match l with
  | a :: _ => mret a
  | [] => raise (PyError IndexError "list index out of range")
  end.

(** ** The handlers *)

Record ask_body := AskBody { response : option string }.

Record history_item := HistoryItem {
  item_id : Z;
  item_user_input : option string;
  item_ai_response : option string;
  item_created_at : Z
}.

Record delete_body := DeleteBody { message : string }.

Definition system_preamble : chat_message :=
  Message "system" "You are a helpful assistant.".

Definition ask_request (prompt : Prompt.t) : chat_request :=
  ChatRequest "gpt-3.5-turbo"
    [system_preamble; Message "user" (Prompt.user_input prompt)].

(** [@app.post("/ask")] *)
Definition ask_ai (prompt : Prompt.t) : M ask_body :=
  try_except
    (response ← chat_completions_create (ask_request prompt);
     ai_message ← index0 (choices response);
     db ← SessionLocal;
     let new_convo :=
       Conversation.new (Some (Prompt.user_input prompt)) ai_message in
     db_add db new_convo;;
     db_commit db;;
     db_close db;;
     mret (AskBody ai_message))
    (λ e, raise (HTTPException 500 (str e))).

Definition to_item (convo : Conversation.t) : history_item :=
  HistoryItem (Conversation.id convo) (Conversation.user_input convo)
    (Conversation.ai_response convo) (Conversation.created_at convo).

(** [@app.get("/history")] *)
Definition get_conversation_history : M (list history_item) :=
  try_except
    (db ← SessionLocal;
     conversations ← db_query_order_by_id_desc_all db;
     db_close db;;
     mret (to_item <$> conversations))
    (λ e, raise (HTTPException 500 (str e))).

Definition deleted_message (convo_id : Z) : string :=
  "Conversation with ID " +:+ pretty convo_id +:+ " deleted successfully.".

(** [@app.delete("/delete/{convo_id}")].  The 404 is raised inside the
    [try], whose [except Exception] clause also covers [HTTPException]. *)
Definition delete_conversation (convo_id : Z) : M delete_body :=
  db ← SessionLocal;
  try_finally
    (try_except
       (convo ← db_query_by_id_first db convo_id;
        match convo with
        | None => raise (HTTPException 404 "Conversation not found")
        | Some convo =>
            db_delete db convo;;
            db_commit db;;
            mret (DeleteBody (deleted_message convo_id))
        end)
       (λ e, db_rollback db;; raise (HTTPException 500 (str e))))
    (db_close db).

(** The [try] block of [delete_conversation], for its session [db]. *)
Definition delete_try (db : nat) (convo_id : Z) : M delete_body :=
  convo ← db_query_by_id_first db convo_id;
  match convo with
  | None => raise (HTTPException 404 "Conversation not found")
  | Some convo =>
      db_delete db convo;;
      db_commit db;;
      mret (DeleteBody (deleted_message convo_id))
  end.

(** The [try] and [except] of [delete_conversation] without its [finally]:
    where it ends is where the handler raises or returns, the session not
    yet closed. *)
Definition delete_attempt (db : nat) (convo_id : Z) : M delete_body :=
  try_except (delete_try db convo_id)
    (λ e, db_rollback db;; raise (HTTPException 500 (str e))).

(** ** Running a request *)

Definition empty_world : world := World ∅ 1 [] [].

Definition no_fault (reply : chat_request → outcome chat_response) (clock : Z)
    : env :=
  Env reply None None AtCommit clock.

Definition echo (text : string) : chat_request → outcome chat_response :=
  λ _, Return (ChatResponse [Some text]).

Definition sessions_released (w : world) : Prop :=
  Forall (λ s, active s = false) (sessions w).

Definition hello : Prompt.t := Prompt.mk "hello".

(** The world a handler leaves behind: storage [t], [s]; one more session,
    in state [last]; the events [evs] appended to the trace. *)
Definition after (w : world) (t : gmap Z row) (s : Z) (last : session)
    (evs : list event) : world :=
  World t s (sessions w ++ [last]) (trace w ++ evs).

(** The requests sent to the completion collaborator, in order. *)
Definition completion_calls (tr : list event) : list chat_request :=
  omap (λ ev, match ev with CompletionsCreate req => Some req | _ => None end) tr.

(** A request to one of the three handlers, and the world it leaves. *)
Inductive request :=
  | Ask (prompt : Prompt.t)
  | History
  | Delete (convo_id : Z).

Definition handle (rq : request) (e : env) (w : world) : world :=
  match rq with
  | Ask prompt => (ask_ai prompt e w).2
  | History => (get_conversation_history e w).2
  | Delete convo_id => (delete_conversation convo_id e w).2
  end.

Inductive reachable : world → Prop :=
  | reachable_init : reachable empty_world
  | reachable_step rq e w : reachable w → reachable (handle rq e w).

(** The [nullable=False] constraint on the stored rows. *)
Definition not_null_rows (t : gmap Z row) : Prop :=
  map_Forall
    (λ _ r, is_Some (row_user_input r) ∧ is_Some (row_ai_response r)) t.

(** The invariant in the specification's words: both texts are non-empty. *)
Definition non_empty_rows (t : gmap Z row) : Prop :=
  map_Forall
    (λ _ r, (∃ u, row_user_input r = Some u ∧ u ≠ "") ∧
            (∃ a, row_ai_response r = Some a ∧ a ≠ "")) t.

Definition id_strictly_desc (a b : history_item) : Prop :=
  item_id b < item_id a.

(** The history entry of the row [r] stored under the key [k]. *)
Definition item_of (k : Z) (r : row) : history_item :=
  HistoryItem k (row_user_input r) (row_ai_response r) (row_created_at r).

(** The ways [ask_ai] fails with the exception [x]: the completion call
    raises it (network, authentication, rate limit); the response has no
    choice; the commit raises it, from a storage fault or from a constraint
    of the table. *)
Definition ask_failure (prompt : Prompt.t) (e : env) (w : world) (x : exn)
    : Prop :=
  completion e (ask_request prompt) = Raise x ∨
  (completion e (ask_request prompt) = Return (ChatResponse []) ∧
   x = PyError IndexError "list index out of range") ∨
  (∃ ai_message rest,
     completion e (ask_request prompt)
       = Return (ChatResponse (ai_message :: rest)) ∧
     commit_result e
       [PendingAdd
          (Conversation.new (Some (Prompt.user_input prompt)) ai_message)] w
       = Raise x).

(** The one way [get_conversation_history] fails: its query raises. *)
Definition history_failure (e : env) (x : exn) : Prop :=
  query_fault e = Some x.

(** The ways the lookup or the removal of [delete_conversation] fails, the
    target being present or not yet looked up. *)
Definition delete_failure (convo_id : Z) (e : env) (w : world) (x : exn)
    : Prop :=
  query_fault e = Some x ∨
  (query_fault e = None ∧ is_Some (table w !! convo_id) ∧
   commit_fault e = Some x).

(** The outcome of a request, as the exception it answers with, if any. *)
Definition raised (rq : request) (e : env) (w : world) : option exn :=
  let error_of {A} (o : outcome A) :=
    match o with Return _ => None | Raise x => Some x end in
  match rq with
  | Ask prompt => error_of (ask_ai prompt e w).1
  | History => error_of (get_conversation_history e w).1
  | Delete convo_id => error_of (delete_conversation convo_id e w).1
  end.

(** A failure of the ask or of the history operation, with the exception
    that underlies it. *)
Inductive failing : request → env → world → exn → Prop :=
  | failing_ask prompt e w x :
      ask_failure prompt e w x → failing (Ask prompt) e w x
  | failing_history e w x :
      history_failure e x → failing History e w x.

(** ** Concrete requests and worlds *)

Definition storage_down : exn :=
  PyError OperationalError "server closed the connection unexpectedly".

Definition calm : env := no_fault (echo "hi") 9.
(** The COMMIT fails, the flush having reached the server. *)
Definition commit_fails : env :=
  Env (echo "hi") None (Some storage_down) AtCommit 9.
(** The commit fails before any statement reaches the server. *)
Definition flush_fails : env :=
  Env (echo "hi") None (Some storage_down) AtFlush 9.
Definition query_fails : env :=
  Env (echo "hi") (Some storage_down) None AtCommit 9.

Definition blank : Prompt.t := Prompt.mk "".

(** A text that holds a NUL character. *)
Definition with_nul : Prompt.t := Prompt.mk (String Ascii.zero "x").

(** Two stored exchanges, made by two successful asks. *)
Definition two_rows : world :=
  handle (Ask (Prompt.mk "again")) (no_fault (echo "hi again") 8)
    (handle (Ask hello) (no_fault (echo "hi") 7) empty_world).

(** ** Sequences of requests *)

(** The world after a sequence of requests, each with what the collaborators
    answer during it. *)
Fixpoint run (rqs : list (request * env)) (w : world) : world :=
  match rqs with
  | [] => w
  | (rq, e) :: rqs' => run rqs' (handle rq e w)
  end.

(** Every stored id was issued by the sequence: it is at least 1 and below
    the next value. *)
Definition ids_issued (w : world) : Prop :=
  1 ≤ id_seq w ∧ map_Forall (λ k _, 1 ≤ k < id_seq w) (table w).

Definition completion_down : env :=
  Env (λ _, Raise (PyError APIConnectionError "Connection error.")) None None
    AtCommit 9.

(** The completion answers with one choice that has no content. *)
Definition no_content : env :=
  Env (λ _, Return (ChatResponse [None])) None None AtCommit 9.

(** ** The configuration read at import *)





(** * Symbolic execution of the handlers *)

Ltac run :=
  cbv [mbind M_bind mret M_ret raise try_except try_finally ask_env get_world
       log set_sessions set_storage SessionLocal db_add db_delete db_commit
       db_rollback db_close db_query_by_id_first db_query_order_by_id_desc_all
       chat_completions_create index0];
  cbn [table id_seq sessions trace fst snd choices].

Lemma alter_last (f : session → session) (ss : list session) (s : session) :
  alter f (length ss) (ss ++ [s]) = ss ++ [f s].
Proof.
  induction ss as [|s' ss IH]; [done|].
  cbn. by rewrite <- IH.
Qed.

Lemma pending_of_last t n ss s tr :
  pending_of (length ss) (World t n (ss ++ [s]) tr) = pending s.
Proof.
  unfold pending_of; cbn.
  by rewrite lookup_app_r, Nat.sub_diag by lia.
Qed.

Ltac tidy :=
  repeat rewrite alter_last;
  repeat rewrite pending_of_last;
  repeat rewrite <- app_assoc;
  cbn [app enqueue flushed expunge release pending uncommitted active].

Example str_not_found :
  str (HTTPException 404 "Conversation not found") = "404: Conversation not found".
Proof. reflexivity. Qed.

Lemma ask_ai_unfold prompt e w :
  let db := length (sessions w) in
  let req := ask_request prompt in
  ask_ai prompt e w =
    match completion e req with
    | Raise x =>
        (Raise (HTTPException 500 (str x)),
         World (table w) (id_seq w) (sessions w)
           (trace w ++ [CompletionsCreate req]))
    | Return r =>
        match choices r with
        | [] =>
            (Raise (HTTPException 500 "list index out of range"),
             World (table w) (id_seq w) (sessions w)
               (trace w ++ [CompletionsCreate req]))
        | ai_message :: _ =>
            let new_convo :=
              Conversation.new (Some (Prompt.user_input prompt)) ai_message in
            match commit_result e [PendingAdd new_convo] w with
            | Raise x =>
                (Raise (HTTPException 500 (str x)),
                 after w (table w) (sequence_after e [PendingAdd new_convo] w)
                   (Session [] (uncommitted_after e [PendingAdd new_convo] w)
                      true)
                   [CompletionsCreate req; SessionOpened db; Added db;
                    CommitFailed db])
            | Return (t, s) =>
                (Return (AskBody ai_message),
                 after w t s (Session [] None false)
                   [CompletionsCreate req; SessionOpened db; Added db;
                    Committed db; Closed db])
            end
        end
    end.
Proof.
  cbv zeta. unfold ask_ai, after. run.
  destruct (completion e (ask_request prompt)) as [[[|ai_message rest]]|x]; run; try done.
  tidy. unfold commit_result, sequence_after, uncommitted_after.
  destruct (commit_fault e) as [x|], (commit_fault_at e); run; tidy; try done.
  all: destruct (flush _ _ _ _) as [[t|x'] s]; run; tidy; done.
Qed.

Lemma get_conversation_history_unfold e w :
  let db := length (sessions w) in
  get_conversation_history e w =
    match query_fault e with
    | Some x =>
        (Raise (HTTPException 500 (str x)),
         after w (table w) (id_seq w) (Session [] None true)
           [SessionOpened db; Queried db])
    | None =>
        (Return (to_item <$> merge_sort id_desc (all_conversations (table w))),
         after w (table w) (id_seq w) (Session [] None false)
           [SessionOpened db; Queried db; Closed db])
    end.
Proof.
  cbv zeta. unfold get_conversation_history, after. run.
  destruct (query_fault e) as [x|]; run; tidy; done.
Qed.

Lemma delete_conversation_unfold convo_id e w :
  let db := length (sessions w) in
  delete_conversation convo_id e w =
    match query_fault e with
    | Some x =>
        (Raise (HTTPException 500 (str x)),
         after w (table w) (id_seq w) (Session [] None false)
           [SessionOpened db; Queried db; RolledBack db; Closed db])
    | None =>
        match table w !! convo_id with
        | None =>
            (Raise (HTTPException 500 "404: Conversation not found"),
             after w (table w) (id_seq w) (Session [] None false)
               [SessionOpened db; Queried db; RolledBack db; Closed db])
        | Some _ =>
            match commit_fault e with
            | Some x =>
                (Raise (HTTPException 500 (str x)),
                 after w (table w) (id_seq w) (Session [] None false)
                   [SessionOpened db; Queried db; Deleted db convo_id;
                    CommitFailed db; RolledBack db; Closed db])
            | None =>
                (Return (DeleteBody (deleted_message convo_id)),
                 after w (delete convo_id (table w)) (id_seq w)
                   (Session [] None false)
                   [SessionOpened db; Queried db; Deleted db convo_id;
                    Committed db; Closed db])
            end
        end
    end.
Proof.
  cbv zeta. unfold delete_conversation, after. run.
  destruct (query_fault e) as [x|]; run; tidy; [done|].
  destruct (table w !! convo_id) as [r|]; cbn [fmap option_fmap option_map];
    run; tidy; [|done].
  cbn [flush Conversation.load Conversation.id].
  destruct (commit_fault e) as [x|], (commit_fault_at e); run; tidy; done.
Qed.

Lemma SessionLocal_unfold e w :
  SessionLocal e w
    = (Return (length (sessions w)),
       after w (table w) (id_seq w) (Session [] None true)
         [SessionOpened (length (sessions w))]).
Proof. reflexivity. Qed.

Lemma delete_conversation_split convo_id :
  delete_conversation convo_id
    = (db ← SessionLocal;
       try_finally (delete_attempt db convo_id) (db_close db)).
Proof. reflexivity. Qed.

(** The [try] block of [delete_conversation], run in the session that the
    handler has just opened. *)
Lemma delete_try_unfold convo_id e w :
  let db := length (sessions w) in
  delete_try db convo_id e (SessionLocal e w).2 =
    match query_fault e with
    | Some x =>
        (Raise x,
         after w (table w) (id_seq w) (Session [] None true)
           [SessionOpened db; Queried db])
    | None =>
        match table w !! convo_id with
        | None =>
            (Raise (HTTPException 404 "Conversation not found"),
             after w (table w) (id_seq w) (Session [] None true)
               [SessionOpened db; Queried db])
        | Some _ =>
            match commit_fault e with
            | Some x =>
                (Raise x,
                 after w (table w) (id_seq w)
                   (Session []
                      match commit_fault_at e with
                      | AtFlush => None
                      | AtCommit => Some (delete convo_id (table w))
                      end true)
                   [SessionOpened db; Queried db; Deleted db convo_id;
                    CommitFailed db])
            | None =>
                (Return (DeleteBody (deleted_message convo_id)),
                 after w (delete convo_id (table w)) (id_seq w)
                   (Session [] None true)
                   [SessionOpened db; Queried db; Deleted db convo_id;
                    Committed db])
            end
        end
    end.
Proof.
  cbv zeta. rewrite SessionLocal_unfold. unfold delete_try, after. run.
  destruct (query_fault e) as [x|]; run; tidy; [done|].
  destruct (table w !! convo_id) as [r|]; cbn [fmap option_fmap option_map];
    run; tidy; [|done].
  cbn [flush Conversation.load Conversation.id].
  destruct (commit_fault e) as [x|], (commit_fault_at e); run; tidy; done.
Qed.

(** The [try] and [except] of [delete_conversation]: where the handler
    raises or returns, its session not yet closed. *)
Lemma delete_attempt_unfold convo_id e w :
  let db := length (sessions w) in
  delete_attempt db convo_id e (SessionLocal e w).2 =
    match query_fault e with
    | Some x =>
        (Raise (HTTPException 500 (str x)),
         after w (table w) (id_seq w) (Session [] None true)
           [SessionOpened db; Queried db; RolledBack db])
    | None =>
        match table w !! convo_id with
        | None =>
            (Raise (HTTPException 500 "404: Conversation not found"),
             after w (table w) (id_seq w) (Session [] None true)
               [SessionOpened db; Queried db; RolledBack db])
        | Some _ =>
            match commit_fault e with
            | Some x =>
                (Raise (HTTPException 500 (str x)),
                 after w (table w) (id_seq w) (Session [] None true)
                   [SessionOpened db; Queried db; Deleted db convo_id;
                    CommitFailed db; RolledBack db])
            | None =>
                (Return (DeleteBody (deleted_message convo_id)),
                 after w (delete convo_id (table w)) (id_seq w)
                   (Session [] None true)
                   [SessionOpened db; Queried db; Deleted db convo_id;
                    Committed db])
            end
        end
    end.
Proof.
  cbv zeta. unfold delete_attempt, try_except.
  rewrite delete_try_unfold. cbv zeta. unfold after.
  destruct (query_fault e) as [x|]; run; tidy; [done|].
  destruct (table w !! convo_id) as [r|]; run; tidy; [|done].
  destruct (commit_fault e) as [x|]; run; tidy; done.
Qed.

(** ** The commit of one added object *)

Lemma commit_add_Return e w u a t s :
  commit_result e [PendingAdd (Conversation.new (Some u) a)] w = Return (t, s) →
  ∃ text,
    a = Some text ∧
    commit_fault e = None ∧
    has_nul u = false ∧ has_nul text = false ∧
    id_seq w ≤ int4_max ∧
    table w !! id_seq w = None ∧
    t = <[id_seq w := Row (Some u) (Some text) (now e)]> (table w) ∧
    s = id_seq w + 1.
Proof.
  unfold commit_result.
  cbn [flush Conversation.new_user_input Conversation.new_ai_response nul_in
       from_option].
  destruct (has_nul u) eqn:Hu; cbn [orb].
  { by destruct (commit_fault e), (commit_fault_at e). }
  destruct a as [text|]; cbn [from_option].
  - destruct (has_nul text) eqn:Htext.
    { by destruct (commit_fault e), (commit_fault_at e). }
    case_bool_decide as Hmax.
    { by destruct (commit_fault e), (commit_fault_at e). }
    destruct (table w !! id_seq w) eqn:Hfresh.
    { by destruct (commit_fault e), (commit_fault_at e). }
    cbn [flush].
    destruct (commit_fault e), (commit_fault_at e); try done.
    all: intros [= <- <-]; exists text; repeat split; try done; lia.
  - case_bool_decide; by destruct (commit_fault e), (commit_fault_at e).
Qed.

Lemma commit_add_success e w u text :
  commit_fault e = None →
  has_nul u = false →
  has_nul text = false →
  id_seq w ≤ int4_max →
  table w !! id_seq w = None →
  commit_result e [PendingAdd (Conversation.new (Some u) (Some text))] w
    = Return (<[id_seq w := Row (Some u) (Some text) (now e)]> (table w),
              id_seq w + 1).
Proof.
  intros Hf Hu Htext Hmax Hfresh. unfold commit_result.
  cbn [flush Conversation.new_user_input Conversation.new_ai_response nul_in
       from_option].
  rewrite Hf, Hu, Htext, Hfresh. cbn [orb].
  rewrite bool_decide_false by lia. by destruct (commit_fault_at e).
Qed.

(** A commit of one added object takes at most one id from the sequence,
    whether it succeeds or not. *)
Lemma sequence_after_add e w obj :
  id_seq w ≤ sequence_after e [PendingAdd obj] w ≤ id_seq w + 1.
Proof.
  assert (id_seq w ≤ (flush [PendingAdd obj] (now e) (table w) (id_seq w)).2
          ≤ id_seq w + 1) as Hflush.
  { cbn [flush].
    destruct (nul_in _ || nul_in _); [cbn; lia|].
    case_bool_decide; [cbn; lia|].
    destruct (Conversation.new_user_input obj),
             (Conversation.new_ai_response obj); try (cbn; lia).
    destruct (table w !! id_seq w); cbn; lia. }
  unfold sequence_after.
  destruct (commit_fault e), (commit_fault_at e); try done. lia.
Qed.

(** * The history query *)

#[global] Instance id_desc_trans : Transitive id_desc.
Proof. unfold id_desc. intros a b c ? ?. lia. Qed.

#[global] Instance id_desc_total : Total id_desc.
Proof. unfold id_desc. intros a b. lia. Qed.

Lemma all_conversations_ids (t : gmap Z row) :
  Conversation.id <$> all_conversations t = (map_to_list t).*1.
Proof.
  unfold all_conversations. rewrite <- list_fmap_compose.
  by apply list_fmap_ext.
Qed.

Lemma all_conversations_items (t : gmap Z row) :
  to_item <$> all_conversations t = (λ kr, item_of kr.1 kr.2) <$> map_to_list t.
Proof.
  unfold all_conversations. rewrite <- list_fmap_compose.
  by apply list_fmap_ext.
Qed.

Lemma item_of_inj k r k' r' : item_of k r = item_of k' r' → k = k' ∧ r = r'.
Proof. destruct r, r'. unfold item_of; cbn. by intros [= -> -> -> ->]. Qed.

(** A list sorted by descending id whose ids are pairwise distinct is
    strictly descending. *)
Lemma descending_distinct_strict (l : list Conversation.t) :
  StronglySorted id_desc l →
  NoDup (Conversation.id <$> l) →
  StronglySorted (λ a b, Conversation.id b < Conversation.id a) l.
Proof.
  induction 1 as [|a l Hl IH Ha]; intros Hnd; [constructor|].
  rewrite fmap_cons in Hnd. apply NoDup_cons in Hnd as [Hnotin Hnd].
  constructor; [by apply IH|].
  rewrite Forall_forall in Ha |- *. intros b Hb.
  specialize (Ha b Hb). unfold id_desc in Ha.
  assert (Conversation.id b ≠ Conversation.id a); [|lia].
  intros Heq. apply Hnotin. rewrite <- Heq. by apply list_elem_of_fmap_2.
Qed.

Lemma sorted_conversations_strict (t : gmap Z row) :
  StronglySorted (λ a b, Conversation.id b < Conversation.id a)
    (merge_sort id_desc (all_conversations t)).
Proof.
  apply descending_distinct_strict.
  - apply (StronglySorted_merge_sort id_desc).
  - rewrite (merge_sort_Permutation id_desc), all_conversations_ids.
    apply NoDup_fst_map_to_list.
Qed.

Lemma history_items_Permutation (t : gmap Z row) :
  to_item <$> merge_sort id_desc (all_conversations t)
    ≡ₚ (λ kr, item_of kr.1 kr.2) <$> map_to_list t.
Proof.
  by rewrite (merge_sort_Permutation id_desc), all_conversations_items.
Qed.

Lemma history_items_elem_of (t : gmap Z row) k r :
  item_of k r ∈ (to_item <$> merge_sort id_desc (all_conversations t))
  ↔ t !! k = Some r.
Proof.
  rewrite history_items_Permutation, list_elem_of_fmap. split.
  - intros [[k' r'] [Heq Hin]]. apply item_of_inj in Heq as [-> ->].
    by apply elem_of_map_to_list in Hin.
  - intros Hk. exists (k, r). split; [done|]. by apply elem_of_map_to_list.
Qed.

Lemma history_items_strict (t : gmap Z row) :
  StronglySorted id_strictly_desc
    (to_item <$> merge_sort id_desc (all_conversations t)).
Proof.
  eapply StronglySorted_fmap; [|apply sorted_conversations_strict].
  by intros a b.
Qed.

(** * The claims *)

(** C3. Whenever its query does not fail, the history handler returns every
    stored exchange exactly once, as its id, user_input, ai_response and
    created_at, in strictly descending order of id, whatever the size of the
    table. *)
Theorem history_returns_all_descending e w :
  query_fault e = None →
  ∃ items,
    (get_conversation_history e w).1 = Return items ∧
    items ≡ₚ (λ kr, item_of kr.1 kr.2) <$> map_to_list (table w) ∧
    StronglySorted id_strictly_desc items ∧
    (∀ k r, item_of k r ∈ items ↔ table w !! k = Some r) ∧
    length items = size (table w).
Proof.
  intros Hq. rewrite get_conversation_history_unfold, Hq. cbn [fst].
  eexists; split; [done|].
  split; [apply history_items_Permutation|].
  split; [apply history_items_strict|].
  split; [apply history_items_elem_of|].
  by rewrite history_items_Permutation, length_fmap, length_map_to_list.
Qed.

Lemma history_returns_all_descending_witness :
  query_fault (no_fault (echo "hi") 9) = None ∧
  ∃ items,
    (get_conversation_history (no_fault (echo "hi") 9) two_rows).1
      = Return items ∧
    items ≡ₚ (λ kr, item_of kr.1 kr.2) <$> map_to_list (table two_rows) ∧
    StronglySorted id_strictly_desc items ∧
    (∀ k r, item_of k r ∈ items ↔ table two_rows !! k = Some r) ∧
    length items = size (table two_rows).
Proof.
  split; [reflexivity|].
  apply (history_returns_all_descending (no_fault (echo "hi") 9) two_rows).
  reflexivity.
Defined.

Lemma history_items_inv (t : gmap Z row) it :
  it ∈ (to_item <$> merge_sort id_desc (all_conversations t)) →
  ∃ k r, it = item_of k r ∧ t !! k = Some r.
Proof.
  rewrite history_items_Permutation, list_elem_of_fmap.
  intros [[k r] [-> Hin]]. exists k, r. split; [done|].
  by apply elem_of_map_to_list.
Qed.

(** C2. When POST /ask answers 200, the completion collaborator returned a
    text, the body carries it, and a row that was not there before is stored
    under a fresh id with the request's user_input and that text as
    ai_response; the next history that succeeds lists it. *)
Theorem ask_ai_200_persists prompt e w :
  status (ask_ai prompt e w).1 = 200 →
  ∃ text rest,
    completion e (ask_request prompt)
      = Return (ChatResponse (Some text :: rest)) ∧
    (ask_ai prompt e w).1 = Return (AskBody (Some text)) ∧
    let w' := (ask_ai prompt e w).2 in
    let stored := Row (Some (Prompt.user_input prompt)) (Some text) (now e) in
    table w !! id_seq w = None ∧
    table w' = <[id_seq w := stored]> (table w) ∧
    ∀ e', query_fault e' = None →
      ∃ items,
        (get_conversation_history e' w').1 = Return items ∧
        item_of (id_seq w) stored ∈ items.
Proof.
  rewrite ask_ai_unfold. cbv zeta.
  destruct (completion e (ask_request prompt)) as [[[|ai_message rest]]|x];
    cbn [choices]; try (cbn; discriminate).
  destruct (commit_result _ _ _) as [[t s]|x] eqn:Hcommit; [|cbn; discriminate].
  apply commit_add_Return in Hcommit
    as (text & -> & _ & _ & _ & _ & Hfresh & -> & ->).
  cbn [fst snd after table]. intros _.
  exists text, rest. repeat split; try done.
  intros e' Hq. rewrite get_conversation_history_unfold, Hq.
  cbn [fst after table]. eexists; split; [done|].
  apply history_items_elem_of, lookup_insert_eq.
Qed.

Lemma ask_ai_200_persists_witness :
  status (ask_ai hello calm two_rows).1 = 200 ∧
  ∃ text rest,
    completion calm (ask_request hello)
      = Return (ChatResponse (Some text :: rest)) ∧
    (ask_ai hello calm two_rows).1 = Return (AskBody (Some text)) ∧
    let w' := (ask_ai hello calm two_rows).2 in
    let stored := Row (Some (Prompt.user_input hello)) (Some text) (now calm) in
    table two_rows !! id_seq two_rows = None ∧
    table w' = <[id_seq two_rows := stored]> (table two_rows) ∧
    ∀ e', query_fault e' = None →
      ∃ items,
        (get_conversation_history e' w').1 = Return items ∧
        item_of (id_seq two_rows) stored ∈ items.
Proof.
  split; [reflexivity|].
  apply (ask_ai_200_persists hello calm two_rows). reflexivity.
Defined.

(** * Deleting *)

(** What [delete_conversation] leaves of the table: everything, or
    everything but the requested row. *)
Lemma delete_conversation_table convo_id e w :
  table (delete_conversation convo_id e w).2 = table w ∨
  table (delete_conversation convo_id e w).2 = delete convo_id (table w).
Proof.
  rewrite delete_conversation_unfold. cbv zeta.
  destruct (query_fault e); [by left|].
  destruct (table w !! convo_id); [|by left].
  destruct (commit_fault e); [by left|by right].
Qed.

(** The lookup of an absent id raises the 404 inside the [try]; the
    [except Exception] clause turns it into a 500. *)
Lemma delete_conversation_absent convo_id e w :
  query_fault e = None →
  table w !! convo_id = None →
  (delete_conversation convo_id e w).1
    = Raise (HTTPException 500 "404: Conversation not found").
Proof.
  intros Hq Hk. by rewrite delete_conversation_unfold, Hq, Hk.
Qed.

Lemma delete_conversation_never_404 convo_id e w :
  status (delete_conversation convo_id e w).1 = 200 ∨
  status (delete_conversation convo_id e w).1 = 500.
Proof.
  rewrite delete_conversation_unfold. cbv zeta.
  destruct (query_fault e); [by right|].
  destruct (table w !! convo_id); [|by right].
  destruct (commit_fault e); [by right|by left].
Qed.

(** X5. Every exit of [delete_conversation] goes through its [finally]: if
    no session was active before the request, none is after it, whatever its
    outcome. *)
Lemma delete_conversation_releases convo_id e w :
  sessions_released w →
  sessions_released (delete_conversation convo_id e w).2.
Proof.
  unfold sessions_released. intros Hw.
  assert (sessions (delete_conversation convo_id e w).2
          = sessions w ++ [Session [] None false]) as ->.
  { rewrite delete_conversation_unfold. cbv zeta.
    destruct (query_fault e); [done|].
    destruct (table w !! convo_id); [|done].
    by destruct (commit_fault e). }
  apply Forall_app. split; [done|]. by repeat constructor.
Qed.

(** C1 (the code departs from it). Deleting an id that was never created is
    answered with 500, not 404; so is the second of two deletions of the same
    id, the first of which is answered with 200. *)
Theorem delete_absent_answers_500 :
  status (delete_conversation 1 calm empty_world).1 = 500 ∧
  (let w1 := handle (Ask hello) calm empty_world in
   status (delete_conversation 1 calm w1).1 = 200 ∧
   status (delete_conversation 1 calm (handle (Delete 1) calm w1)).1 = 500).
Proof. repeat split; reflexivity. Qed.

(** C4. Deleting the id of a stored exchange, when neither the lookup nor the
    commit fails, removes that exchange, so that no later history lists it,
    and returns the message naming the id in decimal. *)
Theorem delete_existing_removes convo_id e w :
  is_Some (table w !! convo_id) →
  query_fault e = None →
  commit_fault e = None →
  (delete_conversation convo_id e w).1
    = Return (DeleteBody ("Conversation with ID " +:+ pretty convo_id
                            +:+ " deleted successfully.")) ∧
  let w' := (delete_conversation convo_id e w).2 in
  table w' = delete convo_id (table w) ∧
  table w' !! convo_id = None ∧
  ∀ e', query_fault e' = None →
    ∃ items,
      (get_conversation_history e' w').1 = Return items ∧
      ∀ it, it ∈ items → item_id it ≠ convo_id.
Proof.
  intros [r Hk] Hq Hc.
  rewrite delete_conversation_unfold, Hq, Hk, Hc. cbn [fst snd after table].
  split; [done|]. split; [done|]. split; [apply lookup_delete_eq|].
  intros e' Hq'. rewrite get_conversation_history_unfold, Hq'.
  cbn [fst after table]. eexists; split; [done|].
  intros it (k & r' & -> & Hin)%history_items_inv. cbn [item_of item_id].
  intros ->. by rewrite lookup_delete_eq in Hin.
Qed.

Lemma delete_existing_removes_witness :
  is_Some (table two_rows !! 1) ∧
  query_fault calm = None ∧
  commit_fault calm = None ∧
  (delete_conversation 1 calm two_rows).1
    = Return (DeleteBody ("Conversation with ID " +:+ pretty 1
                            +:+ " deleted successfully.")) ∧
  let w' := (delete_conversation 1 calm two_rows).2 in
  table w' = delete 1 (table two_rows) ∧
  table w' !! 1 = None ∧
  ∀ e', query_fault e' = None →
    ∃ items,
      (get_conversation_history e' w').1 = Return items ∧
      ∀ it, it ∈ items → item_id it ≠ 1.
Proof.
  assert (is_Some (table two_rows !! 1)) as Hk by (vm_compute; eauto).
  split; [exact Hk|]. split; [reflexivity|]. split; [reflexivity|].
  apply (delete_existing_removes 1 calm two_rows Hk); reflexivity.
Defined.

(** C10. Whatever the outcome of a delete request, every stored exchange
    whose id differs from the requested one is still stored afterwards,
    unchanged. *)
Theorem delete_keeps_other_rows convo_id e w k :
  k ≠ convo_id →
  table (delete_conversation convo_id e w).2 !! k = table w !! k.
Proof.
  intros Hne.
  destruct (delete_conversation_table convo_id e w) as [-> | ->]; [done|].
  by apply lookup_delete_ne.
Qed.

Lemma delete_keeps_other_rows_witness :
  2 ≠ 1 ∧
  is_Some (table two_rows !! 1) ∧
  table (delete_conversation 1 calm two_rows).2 !! 2 = table two_rows !! 2 ∧
  table two_rows !! 2 = Some (Row (Some "again") (Some "hi again") 8).
Proof.
  split; [lia|]. split; [vm_compute; eauto|].
  split; [|reflexivity].
  apply (delete_keeps_other_rows 1 calm two_rows 2). lia.
Defined.

Lemma lookup_opened (w : world) t n last evs :
  sessions (after w t n last evs) !! length (sessions w) = Some last.
Proof. cbn [after sessions]. apply list_lookup_middle. done. Qed.

(** C5. When the lookup or the removal of a delete request fails with an
    exception, the [try] block is left with that exception, the removal, if
    the fault struck the COMMIT, flushed and uncommitted in the transaction
    of the session.  Where the [except] clause then raises the 500 that
    carries the text of the exception, the session, not yet closed, has been
    rolled back: it has nothing pending and nothing uncommitted.  The handler
    answers that 500 with the session rolled back and then closed, nothing
    committed, and the table and the id sequence as they were before the
    request. *)
Theorem delete_failure_reverts convo_id e w x :
  delete_failure convo_id e w x →
  let db := length (sessions w) in
  let tried := delete_try db convo_id e (SessionLocal e w).2 in
  let attempted := delete_attempt db convo_id e (SessionLocal e w).2 in
  let w' := (delete_conversation convo_id e w).2 in
  tried.1 = Raise x ∧
  (query_fault e = None → commit_fault_at e = AtCommit →
   sessions tried.2 !! db
     = Some (Session [] (Some (delete convo_id (table w))) true)) ∧
  attempted.1 = Raise (HTTPException 500 (str x)) ∧
  sessions attempted.2 !! db = Some (Session [] None true) ∧
  table attempted.2 = table w ∧
  (delete_conversation convo_id e w).1 = Raise (HTTPException 500 (str x)) ∧
  table w' = table w ∧
  id_seq w' = id_seq w ∧
  pending_of db w' = [] ∧
  ∃ evs,
    trace w' = trace w ++ evs ++ [RolledBack db; Closed db] ∧
    Committed db ∉ evs.
Proof.
  intros Hfail. cbv zeta.
  rewrite delete_try_unfold, delete_attempt_unfold, delete_conversation_unfold.
  cbv zeta.
  destruct Hfail as [Hq | (Hq & [r Hk] & Hc)].
  - rewrite Hq. cbn [fst snd]. rewrite !lookup_opened.
    unfold after. cbn [table id_seq trace]. rewrite pending_of_last.
    repeat split; try done.
    exists [SessionOpened (length (sessions w)); Queried (length (sessions w))].
    split; [done|]. rewrite !not_elem_of_cons. by repeat split; [..|apply not_elem_of_nil].
  - rewrite Hq, Hk, Hc. cbn [fst snd]. rewrite !lookup_opened.
    unfold after. cbn [table id_seq trace]. rewrite pending_of_last.
    repeat split; try done.
    + intros _ Hat. by rewrite Hat.
    + exists [SessionOpened (length (sessions w));
              Queried (length (sessions w));
              Deleted (length (sessions w)) convo_id;
              CommitFailed (length (sessions w))].
      split; [done|].
      rewrite !not_elem_of_cons. by repeat split; [..|apply not_elem_of_nil].
Qed.

Lemma delete_failure_reverts_witness :
  delete_failure 1 commit_fails two_rows storage_down ∧
  sessions
    (delete_try 2 1 commit_fails (SessionLocal commit_fails two_rows).2).2
    !! 2%nat
    = Some (Session [] (Some (delete 1 (table two_rows))) true) ∧
  sessions
    (delete_attempt 2 1 commit_fails (SessionLocal commit_fails two_rows).2).2
    !! 2%nat
    = Some (Session [] None true) ∧
  (delete_conversation 1 commit_fails two_rows).1
    = Raise (HTTPException 500 "server closed the connection unexpectedly") ∧
  table (delete_conversation 1 commit_fails two_rows).2 = table two_rows ∧
  is_Some (table (delete_conversation 1 commit_fails two_rows).2 !! 1).
Proof.
  assert (delete_failure 1 commit_fails two_rows storage_down) as Hfail.
  { right. split; [reflexivity|]. split; [vm_compute; eauto|reflexivity]. }
  split; [exact Hfail|].
  destruct (delete_failure_reverts 1 commit_fails two_rows storage_down Hfail)
    as (_ & Htried & _ & Hattempted & _ & Ho & Ht & _).
  split; [exact (Htried eq_refl eq_refl)|].
  split; [exact Hattempted|].
  split; [exact Ho|]. split; [exact Ht|].
  rewrite Ht. vm_compute; eauto.
Defined.

(** * Sessions *)

Lemma ask_ai_200_releases prompt e w :
  sessions_released w →
  status (ask_ai prompt e w).1 = 200 →
  sessions_released (ask_ai prompt e w).2.
Proof.
  unfold sessions_released. intros Hw. rewrite ask_ai_unfold. cbv zeta.
  destruct (completion e (ask_request prompt)) as [[[|ai_message rest]]|x];
    cbn [choices]; try (cbn; discriminate).
  destruct (commit_result _ _ _) as [[t s]|x]; [|cbn; discriminate].
  intros _. cbn [snd after sessions].
  apply Forall_app. split; [done|]. by repeat constructor.
Qed.

Lemma get_conversation_history_200_releases e w :
  sessions_released w →
  status (get_conversation_history e w).1 = 200 →
  sessions_released (get_conversation_history e w).2.
Proof.
  unfold sessions_released. intros Hw.
  rewrite get_conversation_history_unfold. cbv zeta.
  destruct (query_fault e); [cbn; discriminate|].
  intros _. cbn [snd after sessions].
  apply Forall_app. split; [done|]. by repeat constructor.
Qed.

(** C8 (the code departs from it). When the commit of an ask fails, or the
    query of a history, the handler answers 500 and the session it opened is
    still active (that of the ask with the insert flushed in its transaction
    and not committed): [db.close()] is on the success path only. *)
Theorem failed_ask_and_history_keep_session :
  status (ask_ai hello commit_fails empty_world).1 = 500 ∧
  sessions (ask_ai hello commit_fails empty_world).2
    = [Session [] (Some {[1 := Row (Some "hello") (Some "hi") 9]}) true] ∧
  ¬ sessions_released (ask_ai hello commit_fails empty_world).2 ∧
  status (get_conversation_history query_fails empty_world).1 = 500 ∧
  sessions (get_conversation_history query_fails empty_world).2
    = [Session [] None true] ∧
  ¬ sessions_released (get_conversation_history query_fails empty_world).2.
Proof.
  repeat split; try reflexivity.
  - intros Hrel. by apply Forall_cons_1 in Hrel as [[=] _].
  - intros Hrel. by apply Forall_cons_1 in Hrel as [[=] _].
Qed.

(** * The completion call *)

Lemma completion_calls_app tr evs :
  completion_calls (tr ++ evs) = completion_calls tr ++ completion_calls evs.
Proof. apply omap_app. Qed.

(** C9 as stated fails: the system message sent is not the text
    "You are a helpful assistant" but that text followed by a full stop. *)
Lemma preamble_is_not_the_stated_text :
  ¬ ∃ m,
      completion_calls (trace (ask_ai hello calm empty_world).2)
        = [ChatRequest m
             [Message "system" "You are a helpful assistant";
              Message "user" "hello"]].
Proof. intros [m Hm]. vm_compute in Hm. discriminate. Qed.

(** C9, amended. Every ask request makes exactly one call to the completion
    collaborator, with the model "gpt-3.5-turbo" and exactly two messages:
    the system message "You are a helpful assistant." and the user message
    holding the request's user_input unchanged. *)
Theorem ask_ai_completion_call prompt e w :
  completion_calls (trace (ask_ai prompt e w).2)
    = completion_calls (trace w) ++
      [ChatRequest "gpt-3.5-turbo"
         [Message "system" "You are a helpful assistant.";
          Message "user" (Prompt.user_input prompt)]].
Proof.
  rewrite ask_ai_unfold. cbv zeta.
  destruct (completion e (ask_request prompt)) as [[[|ai_message rest]]|x];
    cbn [choices]; [| |].
  - cbn [snd trace]. by rewrite completion_calls_app.
  - destruct (commit_result _ _ _) as [[t s]|x];
      cbn [snd after trace]; by rewrite completion_calls_app.
  - cbn [snd trace]. by rewrite completion_calls_app.
Qed.

(** * Failures of ask and history *)

(** [ask_failure] leaves no failure out: [ask_ai] returns, or answers 500
    with the text of an exception that [ask_failure] accounts for. *)
Lemma ask_ai_outcome prompt e w :
  (∃ body, (ask_ai prompt e w).1 = Return body) ∨
  (∃ x, ask_failure prompt e w x ∧
        (ask_ai prompt e w).1 = Raise (HTTPException 500 (str x))).
Proof.
  rewrite ask_ai_unfold. cbv zeta. unfold ask_failure.
  destruct (completion e (ask_request prompt)) as [[[|ai_message rest]]|x];
    cbn [choices].
  - right. eexists. split; [right; left; done|done].
  - destruct (commit_result _ _ _) as [[t s]|x] eqn:Hc.
    + left. by eexists.
    + right. exists x. split; [|done]. right; right. by exists ai_message, rest.
  - right. exists x. by split; [left|].
Qed.

Lemma ask_ai_failure prompt e w x :
  ask_failure prompt e w x →
  (ask_ai prompt e w).1 = Raise (HTTPException 500 (str x)).
Proof.
  rewrite ask_ai_unfold. cbv zeta.
  intros [Hc | [[Hc ->] | (ai_message & rest & Hc & Hcommit)]]; rewrite Hc.
  - done.
  - done.
  - cbn [choices]. by rewrite Hcommit.
Qed.

Lemma get_conversation_history_failure e w x :
  history_failure e x →
  (get_conversation_history e w).1 = Raise (HTTPException 500 (str x)).
Proof.
  unfold history_failure. intros Hq.
  by rewrite get_conversation_history_unfold, Hq.
Qed.

(** C7. Whatever makes the ask operation fail (the completion call raising,
    a response without choices, the commit raising) and whatever makes the
    history operation fail (its query raising), the handler answers with
    status 500 and, as detail, the message text of the exception behind the
    failure; the class of that exception plays no part. *)
Theorem failures_answer_500 rq e w x :
  failing rq e w x →
  raised rq e w = Some (HTTPException 500 (str x)).
Proof.
  destruct 1 as [prompt e w x Hfail | e w x Hfail]; unfold raised.
  - by rewrite (ask_ai_failure _ _ _ _ Hfail).
  - by rewrite (get_conversation_history_failure _ _ _ Hfail).
Qed.

Lemma failures_answer_500_witness :
  failing (Ask hello) commit_fails two_rows storage_down ∧
  raised (Ask hello) commit_fails two_rows
    = Some (HTTPException 500 "server closed the connection unexpectedly").
Proof.
  assert (failing (Ask hello) commit_fails two_rows storage_down) as Hfail.
  { constructor. right; right. exists (Some "hi"), []. split; reflexivity. }
  split; [exact Hfail|].
  exact (failures_answer_500 (Ask hello) commit_fails two_rows storage_down
           Hfail).
Defined.

(** * The rows of the table *)

(** A request leaves the table as it was, or stores one row under a fresh
    key (an ask), or removes the row of the requested key (a delete). *)
Lemma handle_table rq e w :
  table (handle rq e w) = table w ∨
  (∃ prompt text,
     rq = Ask prompt ∧
     table w !! id_seq w = None ∧
     table (handle rq e w)
       = <[id_seq w := Row (Some (Prompt.user_input prompt)) (Some text) (now e)]>
           (table w)) ∨
  (∃ convo_id,
     rq = Delete convo_id ∧
     is_Some (table w !! convo_id) ∧
     table (handle rq e w) = delete convo_id (table w)).
Proof.
  destruct rq as [prompt| |convo_id]; unfold handle.
  - rewrite ask_ai_unfold. cbv zeta.
    destruct (completion e (ask_request prompt)) as [[[|ai_message rest]]|x];
      cbn [choices]; try by left.
    destruct (commit_result _ _ _) as [[t s]|x] eqn:Hcommit; [|by left].
    apply commit_add_Return in Hcommit
      as (text & -> & _ & _ & _ & _ & Hfresh & -> & ->).
    right; left. by exists prompt, text.
  - rewrite get_conversation_history_unfold. cbv zeta.
    by destruct (query_fault e); left.
  - rewrite delete_conversation_unfold. cbv zeta.
    destruct (query_fault e); [by left|].
    destruct (table w !! convo_id) eqn:Hk; [|by left].
    destruct (commit_fault e); [by left|].
    right; right. exists convo_id. by rewrite Hk.
Qed.

(** C6 as stated fails: an ask with the empty text is answered with 200 and
    stores a row whose user_input is empty. *)
Lemma empty_user_input_is_stored :
  non_empty_rows (table empty_world) ∧
  status (ask_ai blank calm empty_world).1 = 200 ∧
  table (handle (Ask blank) calm empty_world) !! 1
    = Some (Row (Some "") (Some "hi") 9) ∧
  ¬ non_empty_rows (table (handle (Ask blank) calm empty_world)).
Proof.
  split; [apply map_Forall_empty|].
  split; [reflexivity|].
  assert (table (handle (Ask blank) calm empty_world) !! 1
          = Some (Row (Some "") (Some "hi") 9)) as Hrow by reflexivity.
  split; [exact Hrow|].
  intros Hinv. destruct (Hinv _ _ Hrow) as [(u & [= <-] & Hu) _]. done.
Qed.

(** C6, amended. Every stored row has a user_input and an ai_response that
    are not NULL (either may be the empty string), and every request keeps
    it so; a request never changes a stored row, only an ask stores a row
    that was not there, and only a delete of its id removes a row. *)
Theorem not_null_rows_preserved rq e w :
  not_null_rows (table w) →
  not_null_rows (table (handle rq e w)) ∧
  (∀ k r r',
     table w !! k = Some r → table (handle rq e w) !! k = Some r' → r' = r) ∧
  (∀ k,
     table w !! k = None → is_Some (table (handle rq e w) !! k) →
     ∃ prompt, rq = Ask prompt) ∧
  (∀ k,
     is_Some (table w !! k) → table (handle rq e w) !! k = None →
     rq = Delete k).
Proof.
  intros Hinv.
  destruct (handle_table rq e w)
    as [-> | [(prompt & text & -> & Hfresh & ->)
             | (convo_id & -> & Hk & ->)]].
  - split; [done|]. split; [|split].
    + intros k r r' Hr Hr'. congruence.
    + intros k Hnone [r Hr]. congruence.
    + intros k [r Hr] Hnone. congruence.
  - split; [|split; [|split]].
    + apply map_Forall_insert_2; [|done]. cbn. eauto.
    + intros k r r' Hr. rewrite lookup_insert_ne; [congruence|].
      intros <-. congruence.
    + eauto.
    + intros k [r Hr]. rewrite lookup_insert_ne; [congruence|].
      intros <-. congruence.
  - split; [|split; [|split]].
    + by apply map_Forall_delete.
    + intros k r r' Hr [_ Hr']%lookup_delete_Some. congruence.
    + intros k Hnone [r [_ Hr]%lookup_delete_Some]. congruence.
    + intros k [r Hr] [->|Hnone]%lookup_delete_None; [done|congruence].
Qed.

Lemma not_null_rows_preserved_witness :
  not_null_rows (table empty_world) ∧
  not_null_rows (table (handle (Ask blank) calm empty_world)) ∧
  table (handle (Ask blank) calm empty_world) !! 1
    = Some (Row (Some "") (Some "hi") 9).
Proof.
  assert (not_null_rows (table empty_world)) as Hinv by apply map_Forall_empty.
  split; [exact Hinv|].
  split; [|reflexivity].
  exact (proj1 (not_null_rows_preserved (Ask blank) calm empty_world Hinv)).
Defined.

(** The constraint holds in every world the handlers can reach. *)
Lemma reachable_not_null w : reachable w → not_null_rows (table w).
Proof.
  induction 1 as [|rq e w _ IH]; [apply map_Forall_empty|].
  destruct (handle_table rq e w)
    as [-> | [(prompt & text & -> & Hfresh & ->)
             | (convo_id & -> & Hk & ->)]]; [done| |].
  - apply map_Forall_insert_2; [|done]. cbn. eauto.
  - by apply map_Forall_delete.
Qed.

(** * Further properties of the handlers *)

(** ** What a request does to storage *)

Lemma handle_storage rq e w :
  (table (handle rq e w) = table w ∧
   id_seq w ≤ id_seq (handle rq e w) ≤ id_seq w + 1) ∨
  (∃ prompt text,
     rq = Ask prompt ∧
     table w !! id_seq w = None ∧
     table (handle rq e w)
       = <[id_seq w := Row (Some (Prompt.user_input prompt)) (Some text) (now e)]>
           (table w) ∧
     id_seq (handle rq e w) = id_seq w + 1) ∨
  (∃ convo_id,
     rq = Delete convo_id ∧
     is_Some (table w !! convo_id) ∧
     table (handle rq e w) = delete convo_id (table w) ∧
     id_seq (handle rq e w) = id_seq w).
Proof.
  destruct rq as [prompt| |convo_id]; unfold handle.
  - rewrite ask_ai_unfold. cbv zeta.
    destruct (completion e (ask_request prompt)) as [[[|ai_message rest]]|x];
      cbn [choices]; try (left; cbn; split; [done|lia]).
    destruct (commit_result _ _ _) as [[t s]|x] eqn:Hcommit.
    + apply commit_add_Return in Hcommit
        as (text & -> & _ & _ & _ & _ & Hfresh & -> & ->).
      right; left. by exists prompt, text.
    + left. cbn [snd after table id_seq]. split; [done|].
      apply sequence_after_add.
  - rewrite get_conversation_history_unfold. cbv zeta.
    destruct (query_fault e); left; cbn; (split; [done|lia]).
  - rewrite delete_conversation_unfold. cbv zeta.
    destruct (query_fault e); [left; cbn; split; [done|lia]|].
    destruct (table w !! convo_id) eqn:Hk; [|left; cbn; split; [done|lia]].
    destruct (commit_fault e); [left; cbn; split; [done|lia]|].
    right; right. exists convo_id. by rewrite Hk.
Qed.

(** A successful ask, in full. *)
Lemma ask_ai_200_inv prompt e w :
  status (ask_ai prompt e w).1 = 200 →
  ∃ text rest,
    completion e (ask_request prompt)
      = Return (ChatResponse (Some text :: rest)) ∧
    commit_fault e = None ∧
    table w !! id_seq w = None ∧
    ask_ai prompt e w
      = (Return (AskBody (Some text)),
         after w
           (<[id_seq w := Row (Some (Prompt.user_input prompt)) (Some text) (now e)]>
              (table w))
           (id_seq w + 1) (Session [] None false)
           [CompletionsCreate (ask_request prompt);
            SessionOpened (length (sessions w)); Added (length (sessions w));
            Committed (length (sessions w)); Closed (length (sessions w))]).
Proof.
  rewrite ask_ai_unfold. cbv zeta.
  destruct (completion e (ask_request prompt)) as [[[|ai_message rest]]|x];
    cbn [choices]; try (cbn; discriminate).
  destruct (commit_result _ _ _) as [[t s]|x] eqn:Hcommit; [|cbn; discriminate].
  apply commit_add_Return in Hcommit
    as (text & -> & Hf & _ & _ & _ & Hfresh & -> & ->).
  intros _. by exists text, rest.
Qed.

Lemma ask_ai_success prompt e w text rest :
  completion e (ask_request prompt)
    = Return (ChatResponse (Some text :: rest)) →
  commit_fault e = None →
  has_nul (Prompt.user_input prompt) = false →
  has_nul text = false →
  id_seq w ≤ int4_max →
  table w !! id_seq w = None →
  ask_ai prompt e w
    = (Return (AskBody (Some text)),
       after w
         (<[id_seq w := Row (Some (Prompt.user_input prompt)) (Some text) (now e)]>
            (table w))
         (id_seq w + 1) (Session [] None false)
         [CompletionsCreate (ask_request prompt);
          SessionOpened (length (sessions w)); Added (length (sessions w));
          Committed (length (sessions w)); Closed (length (sessions w))]).
Proof.
  intros Hc Hf Hu Htext Hmax Hfresh. rewrite ask_ai_unfold. cbv zeta.
  rewrite Hc. cbn [choices].
  by rewrite (commit_add_success e w _ text Hf Hu Htext Hmax Hfresh).
Qed.

(** X1. An ask that is not answered with 200 stores nothing: the table is
    as before.  The id sequence may have lost the one id that a refused or
    uncommitted insert took from it. *)
Theorem failed_ask_stores_nothing prompt e w :
  status (ask_ai prompt e w).1 ≠ 200 →
  table (ask_ai prompt e w).2 = table w ∧
  id_seq w ≤ id_seq (ask_ai prompt e w).2 ≤ id_seq w + 1.
Proof.
  rewrite ask_ai_unfold. cbv zeta.
  destruct (completion e (ask_request prompt)) as [[[|ai_message rest]]|x];
    cbn [choices]; try (intros _; cbn; split; [done|lia]).
  destruct (commit_result _ _ _) as [[t s]|x].
  - intros Hne. by destruct Hne.
  - intros _. cbn [snd after table id_seq]. split; [done|].
    apply sequence_after_add.
Qed.

Lemma failed_ask_stores_nothing_witness :
  status (ask_ai hello commit_fails two_rows).1 ≠ 200 ∧
  table (ask_ai hello commit_fails two_rows).2 = table two_rows ∧
  id_seq two_rows ≤ id_seq (ask_ai hello commit_fails two_rows).2
    ≤ id_seq two_rows + 1 ∧
  id_seq two_rows = 3 ∧
  id_seq (ask_ai hello commit_fails two_rows).2 = 4.
Proof.
  assert (status (ask_ai hello commit_fails two_rows).1 ≠ 200) as Hne
    by (vm_compute; discriminate).
  split; [exact Hne|].
  destruct (failed_ask_stores_nothing hello commit_fails two_rows Hne)
    as [Ht Hs].
  split; [exact Ht|]. split; [exact Hs|]. split; reflexivity.
Defined.

(** What becomes of the sequence when an ask fails at its commit: an id is
    lost when the COMMIT fails, none when the flush does not reach the
    server or the driver refuses a text with a NUL character. *)
Example failed_commit_and_the_sequence :
  id_seq two_rows = 3 ∧
  id_seq (ask_ai hello commit_fails two_rows).2 = 4 ∧
  id_seq (ask_ai hello flush_fails two_rows).2 = 3 ∧
  status (ask_ai with_nul calm two_rows).1 = 500 ∧
  table (ask_ai with_nul calm two_rows).2 = table two_rows ∧
  id_seq (ask_ai with_nul calm two_rows).2 = 3.
Proof. repeat split; reflexivity. Qed.

(** X2. When the completion call raises, or answers without any choice, the
    ask handler has not touched storage at all: no session was created, and
    the only call made is the completion call. *)
Theorem ask_without_choice_opens_no_session prompt e w :
  (∃ x, completion e (ask_request prompt) = Raise x) ∨
  completion e (ask_request prompt) = Return (ChatResponse []) →
  sessions (ask_ai prompt e w).2 = sessions w ∧
  trace (ask_ai prompt e w).2
    = trace w ++ [CompletionsCreate (ask_request prompt)] ∧
  table (ask_ai prompt e w).2 = table w ∧
  status (ask_ai prompt e w).1 = 500.
Proof.
  rewrite ask_ai_unfold. cbv zeta.
  intros [[x Hc] | Hc]; by rewrite Hc.
Qed.

Lemma ask_without_choice_opens_no_session_witness :
  ((∃ x, completion completion_down (ask_request hello) = Raise x) ∨
   completion completion_down (ask_request hello) = Return (ChatResponse [])) ∧
  sessions (ask_ai hello completion_down two_rows).2 = sessions two_rows ∧
  status (ask_ai hello completion_down two_rows).1 = 500.
Proof.
  assert ((∃ x, completion completion_down (ask_request hello) = Raise x) ∨
          completion completion_down (ask_request hello)
            = Return (ChatResponse [])) as Hdown
    by (left; eexists; reflexivity).
  split; [exact Hdown|].
  destruct (ask_without_choice_opens_no_session hello completion_down two_rows
              Hdown) as (Hs & _ & _ & Hst).
  by split.
Defined.

(** X3. When the first choice of the completion has no content, the ask is
    answered with 500 and nothing is stored: the [nullable=False] column
    refuses the row.  When the insert has reached the server, the id it took
    from the sequence is lost. *)
Theorem ask_without_content_is_refused prompt e w rest :
  completion e (ask_request prompt) = Return (ChatResponse (None :: rest)) →
  status (ask_ai prompt e w).1 = 500 ∧
  table (ask_ai prompt e w).2 = table w ∧
  (commit_fault e = None →
   has_nul (Prompt.user_input prompt) = false →
   id_seq w ≤ int4_max →
   id_seq (ask_ai prompt e w).2 = id_seq w + 1).
Proof.
  intros Hc. rewrite ask_ai_unfold. cbv zeta. rewrite Hc. cbn [choices].
  destruct (commit_result _ _ _) as [[t s]|x] eqn:Hcommit.
  { by apply commit_add_Return in Hcommit as (text & [=] & _). }
  split; [done|]. split; [done|].
  intros Hf Hu Hmax. cbn [snd after id_seq]. unfold sequence_after.
  rewrite Hf.
  cbn [flush Conversation.new_user_input Conversation.new_ai_response nul_in
       from_option].
  rewrite Hu. cbn [orb]. by rewrite bool_decide_false by lia.
Qed.

Lemma ask_without_content_is_refused_witness :
  completion no_content (ask_request hello)
    = Return (ChatResponse (None :: [])) ∧
  status (ask_ai hello no_content two_rows).1 = 500 ∧
  table (ask_ai hello no_content two_rows).2 = table two_rows ∧
  id_seq two_rows = 3 ∧
  id_seq (ask_ai hello no_content two_rows).2 = 4.
Proof.
  split; [reflexivity|].
  destruct (ask_without_content_is_refused hello no_content two_rows []
              eq_refl) as (Hst & Ht & Hs).
  split; [exact Hst|]. split; [exact Ht|]. split; [reflexivity|].
  apply Hs; [reflexivity|reflexivity|vm_compute; discriminate].
Defined.

(** X4. Whatever the collaborators do, each of the three handlers either
    returns or raises an [HTTPException] with status 500: no other status and
    no other exception leaves a handler. *)
Theorem handlers_answer_200_or_500 rq e w :
  raised rq e w = None ∨
  ∃ detail, raised rq e w = Some (HTTPException 500 detail).
Proof.
  destruct rq as [prompt| |convo_id]; unfold raised.
  - rewrite ask_ai_unfold. cbv zeta.
    destruct (completion e (ask_request prompt)) as [[[|ai_message rest]]|x];
      cbn [choices]; [right; by eexists| |right; by eexists].
    destruct (commit_result _ _ _) as [[t s]|x]; [by left|right; by eexists].
  - rewrite get_conversation_history_unfold. cbv zeta.
    destruct (query_fault e); [right; by eexists|by left].
  - rewrite delete_conversation_unfold. cbv zeta.
    destruct (query_fault e); [right; by eexists|].
    destruct (table w !! convo_id); [|right; by eexists].
    destruct (commit_fault e); [right; by eexists|by left].
Qed.

(** ** Sessions *)

Lemma delete_conversation_sessions convo_id e w :
  sessions (delete_conversation convo_id e w).2
    = sessions w ++ [Session [] None false].
Proof.
  rewrite delete_conversation_unfold. cbv zeta.
  destruct (query_fault e); [done|].
  destruct (table w !! convo_id); [|done].
  by destruct (commit_fault e).
Qed.

Lemma delete_conversation_releases_witness :
  sessions_released two_rows ∧
  sessions_released (delete_conversation 1 commit_fails two_rows).2 ∧
  status (delete_conversation 1 commit_fails two_rows).1 = 500.
Proof.
  assert (sessions_released two_rows) as Hrel
    by (repeat constructor).
  split; [exact Hrel|]. split; [|reflexivity].
  exact (delete_conversation_releases 1 commit_fails two_rows Hrel).
Defined.

(** X6. A request that is answered with 200 leaves no session active, if
    none was active before it. *)
Theorem answered_200_releases rq e w :
  sessions_released w →
  raised rq e w = None →
  sessions_released (handle rq e w).
Proof.
  intros Hw. destruct rq as [prompt| |convo_id]; unfold raised, handle.
  - intros Hok. apply ask_ai_200_releases; [done|].
    by destruct (ask_ai prompt e w).1.
  - intros Hok. apply get_conversation_history_200_releases; [done|].
    by destruct (get_conversation_history e w).1.
  - intros _. unfold sessions_released.
    rewrite delete_conversation_sessions.
    apply Forall_app. split; [done|]. by repeat constructor.
Qed.

Lemma answered_200_releases_witness :
  sessions_released two_rows ∧
  raised (Ask hello) calm two_rows = None ∧
  sessions_released (handle (Ask hello) calm two_rows).
Proof.
  assert (sessions_released two_rows) as Hrel by (repeat constructor).
  split; [exact Hrel|]. split; [reflexivity|].
  apply (answered_200_releases (Ask hello) calm two_rows Hrel). reflexivity.
Defined.

(** ** Reading *)

(** X7. The history handler only reads: whatever its outcome, the table and
    the id sequence are unchanged, so that a history asked again right after
    gives the same answer. *)
Theorem history_only_reads e e' w :
  table (get_conversation_history e w).2 = table w ∧
  id_seq (get_conversation_history e w).2 = id_seq w ∧
  (get_conversation_history e' (get_conversation_history e w).2).1
    = (get_conversation_history e' w).1.
Proof.
  assert (table (get_conversation_history e w).2 = table w) as Ht.
  { rewrite get_conversation_history_unfold. cbv zeta.
    by destruct (query_fault e). }
  split; [done|]. split.
  - rewrite get_conversation_history_unfold. cbv zeta.
    by destruct (query_fault e).
  - rewrite !(get_conversation_history_unfold e'). cbv zeta.
    rewrite Ht. by destruct (query_fault e').
Qed.

(** X8. Only an ask calls the completion collaborator: a history or a delete
    request adds no call to it. *)
Theorem only_ask_calls_completion rq e w :
  (∀ prompt, rq ≠ Ask prompt) →
  completion_calls (trace (handle rq e w)) = completion_calls (trace w).
Proof.
  intros Hrq. destruct rq as [prompt| |convo_id]; [by destruct (Hrq prompt)| |];
    unfold handle.
  - rewrite get_conversation_history_unfold. cbv zeta.
    destruct (query_fault e); cbn [snd after trace];
      rewrite completion_calls_app; cbn; by rewrite app_nil_r.
  - rewrite delete_conversation_unfold. cbv zeta.
    destruct (query_fault e); [|destruct (table w !! convo_id);
                                 [destruct (commit_fault e)|]];
      cbn [snd after trace]; rewrite completion_calls_app; cbn;
      by rewrite app_nil_r.
Qed.

Lemma only_ask_calls_completion_witness :
  (∀ prompt, Delete 1 ≠ Ask prompt) ∧
  completion_calls (trace (handle (Delete 1) calm two_rows))
    = completion_calls (trace two_rows) ∧
  length (completion_calls (trace two_rows)) = 2%nat.
Proof.
  assert (∀ prompt, Delete 1 ≠ Ask prompt) as Hrq by (intros prompt; discriminate).
  split; [exact Hrq|]. split; [|reflexivity].
  exact (only_ask_calls_completion (Delete 1) calm two_rows Hrq).
Defined.

(** ** Asking and deleting *)

Lemma delete_conversation_success convo_id e w :
  is_Some (table w !! convo_id) →
  query_fault e = None →
  commit_fault e = None →
  delete_conversation convo_id e w
    = (Return (DeleteBody (deleted_message convo_id)),
       after w (delete convo_id (table w)) (id_seq w) (Session [] None false)
         [SessionOpened (length (sessions w)); Queried (length (sessions w));
          Deleted (length (sessions w)) convo_id;
          Committed (length (sessions w)); Closed (length (sessions w))]).
Proof.
  intros [r Hk] Hq Hc.
  by rewrite delete_conversation_unfold, Hq, Hk, Hc.
Qed.

(** X9. Deleting the exchange that a successful ask has just stored, under
    the id the sequence had before the ask, succeeds when storage does not
    fail and gives back the table of before the ask; the sequence stays
    advanced, so that the id is not issued again. *)
Theorem ask_then_delete_restores_table prompt e e' w :
  status (ask_ai prompt e w).1 = 200 →
  query_fault e' = None →
  commit_fault e' = None →
  let w1 := handle (Ask prompt) e w in
  (delete_conversation (id_seq w) e' w1).1
    = Return (DeleteBody (deleted_message (id_seq w))) ∧
  table (handle (Delete (id_seq w)) e' w1) = table w ∧
  id_seq (handle (Delete (id_seq w)) e' w1) = id_seq w + 1.
Proof.
  intros (text & rest & _ & _ & Hfresh & Hask)%ask_ai_200_inv Hq Hc.
  cbv zeta. unfold handle. rewrite Hask. cbn [snd].
  rewrite delete_conversation_success;
    [|cbn [after table]; by rewrite lookup_insert_eq|done..].
  cbn [fst snd after table id_seq].
  split; [done|]. split; [|done]. by apply delete_insert_id.
Qed.

Lemma ask_then_delete_restores_table_witness :
  status (ask_ai hello calm two_rows).1 = 200 ∧
  query_fault calm = None ∧
  commit_fault calm = None ∧
  id_seq two_rows = 3 ∧
  table (handle (Delete 3) calm (handle (Ask hello) calm two_rows))
    = table two_rows.
Proof.
  split; [reflexivity|]. split; [reflexivity|]. split; [reflexivity|].
  split; [reflexivity|].
  exact (proj1 (proj2 (ask_then_delete_restores_table hello calm calm two_rows
                         eq_refl eq_refl eq_refl))).
Defined.

(** Deleting an id that is not stored changes nothing in storage. *)
Lemma delete_absent_keeps_storage convo_id e w :
  table w !! convo_id = None →
  table (delete_conversation convo_id e w).2 = table w ∧
  id_seq (delete_conversation convo_id e w).2 = id_seq w.
Proof.
  intros Hk. rewrite delete_conversation_unfold. cbv zeta. rewrite Hk.
  by destruct (query_fault e).
Qed.

Lemma delete_200_inv convo_id e w :
  raised (Delete convo_id) e w = None →
  table (handle (Delete convo_id) e w) = delete convo_id (table w) ∧
  id_seq (handle (Delete convo_id) e w) = id_seq w.
Proof.
  unfold raised, handle. rewrite delete_conversation_unfold. cbv zeta.
  destruct (query_fault e); [done|].
  destruct (table w !! convo_id); [|done].
  by destruct (commit_fault e).
Qed.

(** X10. Once a delete has been answered with 200, its id is no longer
    stored, and deleting the same id again, whatever storage does then,
    leaves the table as the first delete left it. *)
Theorem delete_again_keeps_table convo_id e e' w :
  raised (Delete convo_id) e w = None →
  let w1 := handle (Delete convo_id) e w in
  table w1 !! convo_id = None ∧
  table (handle (Delete convo_id) e' w1) = table w1 ∧
  id_seq (handle (Delete convo_id) e' w1) = id_seq w.
Proof.
  intros [Ht Hs]%delete_200_inv. cbv zeta.
  assert (table (handle (Delete convo_id) e w) !! convo_id = None) as Hgone
    by (rewrite Ht; apply lookup_delete_eq).
  split; [done|]. rewrite <- Hs.
  exact (delete_absent_keeps_storage convo_id e' _ Hgone).
Qed.

Lemma delete_again_keeps_table_witness :
  raised (Delete 1) calm two_rows = None ∧
  table (handle (Delete 1) calm two_rows) !! 1 = None ∧
  table (handle (Delete 1) query_fails (handle (Delete 1) calm two_rows))
    = table (handle (Delete 1) calm two_rows).
Proof.
  split; [reflexivity|].
  destruct (delete_again_keeps_table 1 calm query_fails two_rows eq_refl)
    as (Hgone & Hsame & _).
  by split.
Defined.

(** ** The ids *)

(** X11. An id below the sequence value under which nothing is stored, be it
    an id whose exchange was deleted or one that was never stored, stays
    without an exchange whatever requests follow: the handlers never give an
    issued id to a new row. *)
Theorem issued_id_never_returns rqs w k :
  k < id_seq w →
  table w !! k = None →
  table (run rqs w) !! k = None.
Proof.
  revert w. induction rqs as [|[rq e] rqs IH]; intros w Hlt Hk; [done|].
  cbn [run]. 
  destruct (handle_storage rq e w)
    as [[Ht Hs] | [(prompt & text & _ & _ & Ht & Hs)
                  | (convo_id & _ & _ & Ht & Hs)]];
    apply IH; rewrite ?Ht, ?Hs; try lia; try done.
  - rewrite lookup_insert_ne; [done|lia].
  - apply lookup_delete_None. by right.
Qed.

Lemma issued_id_never_returns_witness :
  1 < id_seq (handle (Delete 1) calm two_rows) ∧
  table (handle (Delete 1) calm two_rows) !! 1 = None ∧
  table (run [(Ask hello, calm); (History, calm); (Ask blank, calm)]
           (handle (Delete 1) calm two_rows)) !! 1 = None.
Proof.
  assert (1 < id_seq (handle (Delete 1) calm two_rows)) as Hlt
    by (vm_compute; reflexivity).
  assert (table (handle (Delete 1) calm two_rows) !! 1 = None) as Hk
    by reflexivity.
  split; [exact Hlt|]. split; [exact Hk|].
  exact (issued_id_never_returns
           [(Ask hello, calm); (History, calm); (Ask blank, calm)]
           (handle (Delete 1) calm two_rows) 1 Hlt Hk).
Defined.

Lemma handle_ids_issued rq e w : ids_issued w → ids_issued (handle rq e w).
Proof.
  unfold ids_issued. intros [Hseq Hkeys].
  destruct (handle_storage rq e w)
    as [[-> Hs] | [(prompt & text & _ & _ & -> & ->)
                  | (convo_id & _ & _ & -> & ->)]].
  - split; [lia|].
    eapply map_Forall_impl; [exact Hkeys|]. cbn. intros. lia.
  - split; [lia|]. apply map_Forall_insert_2; [lia|].
    eapply map_Forall_impl; [exact Hkeys|]. cbn. intros. lia.
  - split; [done|]. by apply map_Forall_delete.
Qed.

Lemma reachable_ids_issued w : reachable w → ids_issued w.
Proof.
  induction 1 as [|rq e w _ IH]; [|by apply handle_ids_issued].
  split; [done|]. apply map_Forall_empty.
Qed.

Lemma ids_issued_fresh w : ids_issued w → table w !! id_seq w = None.
Proof.
  intros [_ Hkeys]. destruct (table w !! id_seq w) as [r|] eqn:Hk; [|done].
  specialize (Hkeys _ _ Hk). cbn in Hkeys. lia.
Qed.

(** X12. In a world reached from the empty table by requests to the
    handlers, an ask is answered with 200 and the text of the completion
    whenever the completion answers with a text, neither that text nor the
    user's holds a NUL character, the id sequence is not exhausted and no
    fault strikes the commit: the key taken from the sequence is never
    already in use. *)
Theorem reachable_ask_succeeds prompt e w text rest :
  reachable w →
  completion e (ask_request prompt)
    = Return (ChatResponse (Some text :: rest)) →
  commit_fault e = None →
  has_nul (Prompt.user_input prompt) = false →
  has_nul text = false →
  id_seq w ≤ int4_max →
  (ask_ai prompt e w).1 = Return (AskBody (Some text)) ∧
  table (ask_ai prompt e w).2 !! id_seq w
    = Some (Row (Some (Prompt.user_input prompt)) (Some text) (now e)).
Proof.
  intros Hreach Hc Hf Hu Htext Hmax.
  rewrite (ask_ai_success prompt e w text rest Hc Hf Hu Htext Hmax);
    [|by apply ids_issued_fresh, reachable_ids_issued].
  cbn [fst snd after table]. split; [done|]. apply lookup_insert_eq.
Qed.

Lemma reachable_two_rows : reachable two_rows.
Proof. unfold two_rows. repeat constructor. Qed.

Lemma reachable_ask_succeeds_witness :
  reachable two_rows ∧
  completion calm (ask_request hello) = Return (ChatResponse (Some "hi" :: [])) ∧
  commit_fault calm = None ∧
  has_nul (Prompt.user_input hello) = false ∧
  has_nul "hi" = false ∧
  id_seq two_rows ≤ int4_max ∧
  (ask_ai hello calm two_rows).1 = Return (AskBody (Some "hi")) ∧
  table (ask_ai hello calm two_rows).2 !! id_seq two_rows
    = Some (Row (Some (Prompt.user_input hello)) (Some "hi") (now calm)).
Proof.
  assert (id_seq two_rows ≤ int4_max) as Hmax by (vm_compute; discriminate).
  split; [exact reachable_two_rows|]. split; [reflexivity|].
  split; [reflexivity|]. split; [reflexivity|]. split; [reflexivity|].
  split; [exact Hmax|].
  exact (reachable_ask_succeeds hello calm two_rows "hi" [] reachable_two_rows
           eq_refl eq_refl eq_refl eq_refl Hmax).
Defined.

(** The first element of a strictly descending list is the one with the
    greatest id. *)
Lemma strictly_desc_head (items : list history_item) it :
  StronglySorted id_strictly_desc items →
  it ∈ items →
  (∀ it', it' ∈ items → item_id it' ≤ item_id it) →
  ∃ older, items = it :: older.
Proof.
  intros Hsorted Hin Hmax. destruct Hsorted as [|first older _ Hfirst].
  - by apply elem_of_nil in Hin.
  - apply elem_of_cons in Hin as [-> | Hin]; [by eexists|].
    rewrite Forall_forall in Hfirst. specialize (Hfirst it Hin).
    unfold id_strictly_desc in Hfirst.
    specialize (Hmax first (list_elem_of_here _ _)). lia.
Qed.

(** X13. In a world reached from the empty table, the exchange stored by a
    successful ask is the first item of the next history that succeeds. *)
Theorem newest_exchange_is_listed_first prompt e e' w :
  reachable w →
  status (ask_ai prompt e w).1 = 200 →
  query_fault e' = None →
  ∃ text older,
    (ask_ai prompt e w).1 = Return (AskBody (Some text)) ∧
    (get_conversation_history e' (ask_ai prompt e w).2).1
      = Return (HistoryItem (id_seq w) (Some (Prompt.user_input prompt))
                  (Some text) (now e) :: older).
Proof.
  intros Hreach (text & rest & _ & _ & Hfresh & Hask)%ask_ai_200_inv Hq.
  rewrite Hask. cbn [fst snd]. exists text.
  rewrite get_conversation_history_unfold, Hq. cbn [fst after table].
  set (stored := Row (Some (Prompt.user_input prompt)) (Some text) (now e)).
  set (t' := <[id_seq w := stored]> (table w)).
  destruct (strictly_desc_head
              (to_item <$> merge_sort id_desc (all_conversations t'))
              (item_of (id_seq w) stored)) as [older Holder].
  - apply history_items_strict.
  - apply history_items_elem_of, lookup_insert_eq.
  - intros it' (k & r & -> & Hk)%history_items_inv. cbn [item_of item_id].
    apply lookup_insert_Some in Hk as [[<- _] | [_ Hk]]; [done|].
    destruct (reachable_ids_issued w Hreach) as [_ Hkeys].
    specialize (Hkeys _ _ Hk). cbn in Hkeys. lia.
  - exists older. split; [done|]. by rewrite Holder.
Qed.

Lemma newest_exchange_is_listed_first_witness :
  reachable two_rows ∧
  status (ask_ai hello calm two_rows).1 = 200 ∧
  query_fault calm = None ∧
  ∃ text older,
    (ask_ai hello calm two_rows).1 = Return (AskBody (Some text)) ∧
    (get_conversation_history calm (ask_ai hello calm two_rows).2).1
      = Return (HistoryItem (id_seq two_rows)
                  (Some (Prompt.user_input hello)) (Some text) (now calm)
                :: older).
Proof.
  split; [exact reachable_two_rows|]. split; [reflexivity|].
  split; [reflexivity|].
  exact (newest_exchange_is_listed_first hello calm calm two_rows
           reachable_two_rows eq_refl eq_refl).
Defined.

(** X15. In a world reached from the empty table, every item of a history
    has a user_input and an ai_response that are not null, and an id that is
    at least 1 and below the next id of the sequence. *)
Theorem reachable_history_items e w items :
  reachable w →
  (get_conversation_history e w).1 = Return items →
  Forall (λ it, is_Some (item_user_input it) ∧ is_Some (item_ai_response it) ∧
                1 ≤ item_id it < id_seq w) items.
Proof.
  intros Hreach. rewrite get_conversation_history_unfold. cbv zeta.
  destruct (query_fault e); [done|]. cbn [fst]. intros [= <-].
  apply Forall_forall. intros it (k & r & -> & Hk)%history_items_inv.
  destruct (reachable_not_null w Hreach _ _ Hk) as [Hu Ha].
  destruct (reachable_ids_issued w Hreach) as [_ Hkeys].
  specialize (Hkeys _ _ Hk). by cbn in *.
Qed.

Lemma reachable_history_items_witness :
  reachable two_rows ∧
  ∃ items,
    (get_conversation_history calm two_rows).1 = Return items ∧
    length items = 2%nat ∧
    Forall (λ it, is_Some (item_user_input it) ∧
                  is_Some (item_ai_response it) ∧
                  1 ≤ item_id it < id_seq two_rows) items.
Proof.
  split; [exact reachable_two_rows|].
  eexists. split; [reflexivity|]. split; [reflexivity|].
  exact (reachable_history_items calm two_rows _ reachable_two_rows eq_refl).
Defined.

(** ** The message of a delete *)

Lemma string_length_app (s t : string) :
  String.length (s +:+ t) = (String.length s + String.length t)%nat.
Proof. induction s as [|a s IH]; [done|]. simpl. by rewrite IH. Qed.

Lemma string_app_inj_r (s1 s2 t : string) : s1 +:+ t = s2 +:+ t → s1 = s2.
Proof.
  revert s2. induction s1 as [|a s1 IH]; intros [|b s2] Heq.
  - done.
  - apply (f_equal String.length) in Heq.
    rewrite !string_length_app in Heq. simpl in Heq. lia.
  - apply (f_equal String.length) in Heq.
    rewrite !string_length_app in Heq. simpl in Heq. lia.
  - simpl in Heq. injection Heq as -> Heq. f_equal. by apply IH.
Qed.

(** X16. The message of a successful delete names its id without ambiguity:
    two ids with the same message are the same id. *)
Theorem deleted_message_names_the_id (k k' : Z) :
  deleted_message k = deleted_message k' → k = k'.
Proof.
  unfold deleted_message. intros Heq.
  apply (inj (String.app "Conversation with ID ")) in Heq.
  apply string_app_inj_r in Heq. by apply (inj pretty) in Heq.
Qed.

Lemma deleted_message_names_the_id_witness :
  deleted_message (-42) = deleted_message (-42) ∧
  deleted_message (-42) = "Conversation with ID -42 deleted successfully.".
Proof.
  split; [|reflexivity].
  exact (f_equal deleted_message
           (deleted_message_names_the_id (-42) (-42) eq_refl)).
Defined.

(** ** The configuration *)

